(** * Agent test harness: runner and aggregation engine

    A shallow embedding of [scripts/run_test_suite.py] and
    [scripts/aggregate_results.py], followed by the properties of the
    two-turn test protocol and of the aggregation pipeline.

    Python values are embedded as they reach the code: text is a list of
    Unicode code points, integers are unbounded, floats are IEEE binary64
    values (the executable specification of the standard library), and the
    values decoded from JSON form the type [pyval]. *)

From Stdlib Require Import String Ascii.
From Stdlib Require Import ZArith NArith PArith List Bool Lia.
From Stdlib Require Import Permutation.
From Stdlib Require Import SpecFloat.
Import ListNotations.

Local Open Scope string_scope.
Local Open Scope list_scope.

(* ================================================================== *)
(** * Text *)
(* ================================================================== *)

(** A Python [str] is a sequence of code points. *)
Definition pystr := list N.

Definition of_string (s : string) : pystr :=
  map N_of_ascii (list_ascii_of_string s).

Coercion of_string : string >-> pystr.

(** Line feed and the double quote, which a literal cannot hold. *)
Definition LF : N := 10%N.
Definition DQUOTE : N := 34%N.

(** [txt] writes test inputs legibly: in the literal, a single quote stands
    for a double quote and the two characters backslash-n for a line feed. *)
Fixpoint txt_points (l : pystr) : pystr :=
  match l with
  | [] => []
  | c :: r =>
      match r with
      | d :: r' =>
          if (N.eqb c 92 && N.eqb d 110)%bool then LF :: txt_points r'
          else (if N.eqb c 39 then DQUOTE else c) :: txt_points r
      | [] => [if N.eqb c 39 then DQUOTE else c]
      end
  end.

Definition txt (s : string) : pystr := txt_points (of_string s).

Fixpoint pystr_eqb (a b : pystr) : bool :=
  match a, b with
  | [], [] => true
  | x :: a', y :: b' => N.eqb x y && pystr_eqb a' b'
  | _, _ => false
  end.

(** [str.isspace] on one code point: the white space of the Unicode
    character database. *)
Definition isspace (c : N) : bool :=
  existsb (N.eqb c)
    [9; 10; 11; 12; 13; 28; 29; 30; 31; 32; 133; 160; 5760;
     8192; 8193; 8194; 8195; 8196; 8197; 8198; 8199; 8200; 8201; 8202;
     8232; 8233; 8239; 8287; 12288]%N.

Fixpoint lstrip (s : pystr) : pystr :=
  match s with
  | [] => []
  | c :: r => if isspace c then lstrip r else s
  end.

Definition rstrip (s : pystr) : pystr := rev (lstrip (rev s)).

(** [s.strip()] *)
Definition strip (s : pystr) : pystr := rstrip (lstrip s).

(** [s.startswith(p)] *)
Fixpoint startswith (p s : pystr) : bool :=
  match p, s with
  | [], _ => true
  | x :: p', y :: s' => N.eqb x y && startswith p' s'
  | _ :: _, [] => false
  end.

(** [s.split(sep)] for a one-character separator. *)
Fixpoint split_on (sep : N) (s : pystr) : list pystr :=
  match s with
  | [] => [[]]
  | c :: r =>
      if N.eqb c sep then [] :: split_on sep r
      else match split_on sep r with
           | l :: ls => (c :: l) :: ls
           | [] => [[c]]
           end
  end.

(** [sep.join(parts)] *)
Fixpoint join (sep : pystr) (parts : list pystr) : pystr :=
  match parts with
  | [] => []
  | [x] => x
  | x :: rest => x ++ sep ++ join sep rest
  end.

(** [l[lo:hi]] for [0 <= lo] and [0 <= hi]. *)
Definition slice {A : Type} (lo hi : nat) (l : list A) : list A :=
  firstn (hi - lo) (skipn lo l).

(** Decimal digits of a natural number, most significant first. *)
Fixpoint digits_fuel (fuel : nat) (n : N) (acc : pystr) : pystr :=
  match fuel with
  | O => acc
  | S f =>
      let acc' := (48 + n mod 10)%N :: acc in
      if (n / 10 =? 0)%N then acc' else digits_fuel f (n / 10)%N acc'
  end.

Definition str_of_N (n : N) : pystr :=
  digits_fuel (S (N.to_nat (N.log2 n))) n [].

(** [str(z)] for an [int]. *)
Definition str_of_Z (z : Z) : pystr :=
  match z with
  | Z0 => of_string "0"
  | Zpos p => str_of_N (Npos p)
  | Zneg p => 45%N :: str_of_N (Npos p)
  end.

(* ================================================================== *)
(** * Source: [strip_markdown_code_fences]

    The function is defined twice, with the same text, in
    [run_test_suite.py] and in [aggregate_results.py]. *)
(* ================================================================== *)

Definition FENCE : pystr := of_string "```".

(** The [while] loop that walks [end_idx] down from the last line. *)
Fixpoint find_closing_fence (lines : list pystr) (end_idx : nat) : nat :=
  match end_idx with
  | O => O
  | S k =>
      if pystr_eqb (strip (nth end_idx lines [])) FENCE then end_idx
      else find_closing_fence lines k
  end.

Definition strip_markdown_code_fences (text : pystr) : pystr :=
  match text with
  | [] => text
  | _ =>
      let text := strip text in
      if startswith FENCE text then
        let lines := split_on LF text in
        if startswith FENCE (nth 0 lines []) then
          let end_idx := find_closing_fence lines (length lines - 1) in
          if (0 <? end_idx)%nat
          then strip (join [LF] (slice 1 end_idx lines))
          else text
        else text
      else text
  end.

(** The fence-stripping rule in the words of the specification: when the
    text begins with a fence marker, the payload is what stands strictly
    between the opening fence line and the nearest later line that is
    exactly a fence marker; without such a line the text is returned as it
    is. *)
Fixpoint nearest_fence_line (lines : list pystr) : option nat :=
  match lines with
  | [] => None
  | l :: rest =>
      if pystr_eqb l FENCE then Some O
      else option_map S (nearest_fence_line rest)
  end.

Definition fence_payload_by_spec (text : pystr) : pystr :=
  if startswith FENCE text then
    let after_opening := skipn 1 (split_on LF text) in
    match nearest_fence_line after_opening with
    | Some i => join [LF] (firstn i after_opening)
    | None => text
    end
  else text.

(* ================================================================== *)
(** * Python floats: IEEE binary64 *)
(* ================================================================== *)

Definition float := spec_float.

Definition prec : Z := 53.
Definition emax : Z := 1024.

Definition float_zero : float := S754_zero false.

(** The binary64 value nearest to [n / d] (ties to even), with sign [s]. *)
Definition round_ratio (s : bool) (n d : positive) : float :=
  let '(mz, ez, lz) := SFdiv_core_binary prec emax (Zpos n) 0 (Zpos d) 0 in
  binary_round_aux prec emax s mz ez lz.

Definition float_of_ratio (n : Z) (d : positive) : float :=
  match n with
  | Z0 => S754_zero false
  | Zpos p => round_ratio false p d
  | Zneg p => round_ratio true p d
  end.

(** Magnitudes from [2^1024 - 2^970] on round to infinity. *)
Definition overflow_bound : Z := 2 ^ 1024 - 2 ^ 970.

Definition float_add (x y : float) : float := SFadd prec emax x y.
Definition float_sub (x y : float) : float := SFsub prec emax x y.

Definition float_is_zero (x : float) : bool :=
  match x with S754_zero _ => true | _ => false end.

(** [round(x, ndigits)] on a float, for [0 <= ndigits]: the exact value of
    [x] is rounded to [ndigits] decimals, ties to even, and the decimal
    obtained is converted back to the nearest float. *)
Definition round_half_even (n : Z) (d : positive) : Z :=
  let q := (n / Zpos d)%Z in
  let r := (n mod Zpos d)%Z in
  match (2 * r ?= Zpos d)%Z with
  | Lt => q
  | Gt => (q + 1)%Z
  | Eq => if Z.even q then q else (q + 1)%Z
  end.

Definition float_round (x : float) (ndigits : N) : float :=
  match x with
  | S754_finite s m e =>
      let scale := (10 ^ Z.of_N ndigits)%Z in
      let k :=
        match e with
        | Zneg p => round_half_even (Zpos m * scale) (2 ^ p)%positive
        | _ => (Zpos m * scale * 2 ^ e)%Z
        end in
      match k with
      | Zpos kp => round_ratio s kp (Z.to_pos scale)
      | _ => S754_zero s
      end
  | _ => x
  end.

(** [int(x)] on a float truncates towards zero; infinities and NaN have no
    integer value. *)
Definition float_trunc (x : float) : option Z :=
  match x with
  | S754_zero _ => Some 0%Z
  | S754_finite s m e =>
      let a := match e with
               | Zneg p => (Zpos m / Zpos (2 ^ p)%positive)%Z
               | _ => (Zpos m * 2 ^ e)%Z
               end in
      Some (if s then (- a)%Z else a)
  | _ => None
  end.

(** ** [repr] of a float: the shortest decimal that reads back the same *)

Definition ndigits10 (n : N) : nat := length (str_of_N n).

(** The [p] with [10^(p-1) <= n/d < 10^p]. *)
Definition decimal_point (n d : positive) : Z :=
  if (Zpos d <=? Zpos n)%Z then Z.of_nat (ndigits10 (Npos n / Npos d))
  else
    let c := ((Npos d + Npos n - 1) / Npos n)%N in
    (1 - Z.of_nat (ndigits10 (c - 1)))%Z.

(** [c * 10^(-k)] as a float. *)
Definition float_of_decimal (s : bool) (c : positive) (k : Z) : float :=
  match k with
  | Zneg p => round_ratio s (c * 10 ^ p) 1
  | Z0 => round_ratio s c 1
  | Zpos p => round_ratio s c (10 ^ p)
  end.

Definition same_finite (x : float) (m : positive) (e : Z) : bool :=
  match x with
  | S754_finite _ m' e' => (Pos.eqb m m' && Z.eqb e e')%bool
  | _ => false
  end.

(** The decimal of [ndig] digits nearest to [m * 2^e] that reads back as
    [m * 2^e], if there is one: the integer [c] and the exponent [k] of
    [c * 10^(-k)]. *)
Definition repr_candidate (m : positive) (e : Z) (ndig : nat)
  : option (positive * Z) :=
  let '(n, d) := match e with
                 | Zneg p => (m, (2 ^ p)%positive)
                 | _ => (Z.to_pos (Zpos m * 2 ^ e), 1%positive)
                 end in
  let k := (Z.of_nat ndig - decimal_point n d)%Z in
  let '(sn, sd) := match k with
                   | Zneg p => (n, (d * 10 ^ p)%positive)
                   | Z0 => (n, d)
                   | Zpos p => ((n * 10 ^ p)%positive, d)
                   end in
  let lo := Z.to_pos (Zpos sn / Zpos sd) in
  let r := (Zpos sn mod Zpos sd)%Z in
  let ok c := same_finite (float_of_decimal false c k) m e in
  if (r =? 0)%Z then (if ok lo then Some (lo, k) else None)
  else
    let hi := (lo + 1)%positive in
    match ok lo, ok hi with
    | true, false => Some (lo, k)
    | false, true => Some (hi, k)
    | false, false => None
    | true, true =>
        match (2 * r ?= Zpos sd)%Z with
        | Lt => Some (lo, k)
        | Gt => Some (hi, k)
        | Eq => if Z.even (Zpos lo) then Some (lo, k) else Some (hi, k)
        end
    end.

Fixpoint shortest_decimal (m : positive) (e : Z) (fuel ndig : nat)
  : positive * Z :=
  match fuel with
  | O => (m, 0%Z)
  | S f =>
      match repr_candidate m e ndig with
      | Some ck => ck
      | None => shortest_decimal m e f (S ndig)
      end
  end.

Fixpoint rstrip_zeros_rev (r : pystr) : pystr :=
  match r with
  | c :: r' => if N.eqb c 48 then rstrip_zeros_rev r' else r
  | [] => []
  end.

Definition zeros (n : nat) : pystr := repeat 48%N n.

(** The digits and the position of the decimal point laid out as [repr]
    does: plain notation when [-4 < decpt <= 16], scientific otherwise. *)
Definition format_repr (digits : pystr) (decpt : Z) : pystr :=
  let n := Z.of_nat (length digits) in
  if ((decpt <=? -4) || (16 <? decpt))%Z%bool then
    let ex := (decpt - 1)%Z in
    let mant := match digits with
                | [] => []
                | [c] => [c]
                | c :: rest => c :: 46%N :: rest
                end in
    let ed := str_of_N (Z.to_N (Z.abs ex)) in
    let ed := match ed with [c] => [48%N; c] | _ => ed end in
    mant ++ [101%N; if (ex <? 0)%Z then 45%N else 43%N] ++ ed
  else if (decpt <=? 0)%Z then
    of_string "0." ++ zeros (Z.to_nat (- decpt)) ++ digits
  else if (n <=? decpt)%Z then
    digits ++ zeros (Z.to_nat (decpt - n)) ++ of_string ".0"
  else
    firstn (Z.to_nat decpt) digits ++ [46%N] ++ skipn (Z.to_nat decpt) digits.

Definition float_repr (x : float) : pystr :=
  match x with
  | S754_nan => of_string "nan"
  | S754_infinity s => of_string (if s then "-inf" else "inf")
  | S754_zero s => of_string (if s then "-0.0" else "0.0")
  | S754_finite s m e =>
      let '(c, k) := shortest_decimal m e 17 1 in
      let all := str_of_N (Npos c) in
      let digits := rev (rstrip_zeros_rev (rev all)) in
      let decpt := (Z.of_nat (length all) - k)%Z in
      (if s then [45%N] else []) ++ format_repr digits decpt
  end.

(* ================================================================== *)
(** * Python values *)
(* ================================================================== *)

(** The values [json.loads] builds.  A [dict] keeps its keys in insertion
    order; the keys of a decoded object are strings. *)
#[warnings="-register-all"]
Inductive pyval : Type :=
| PNone
| PBool (b : bool)
| PInt (z : Z)
| PFloat (f : float)
| PStr (s : pystr)
| PList (l : list pyval)
| PDict (d : list (pystr * pyval)).

Definition pydict := list (pystr * pyval).

(** Truth value of an object, as [if x:] and [not x] test it. *)
Definition truthy (v : pyval) : bool :=
  match v with
  | PNone => false
  | PBool b => b
  | PInt z => negb (Z.eqb z 0)
  | PFloat f => negb (float_is_zero f)
  | PStr s => match s with [] => false | _ => true end
  | PList l => match l with [] => false | _ => true end
  | PDict d => match d with [] => false | _ => true end
  end.

(** [d.get(key)], [d.get(key, default)] and [d[key] = v]. *)
Fixpoint dict_find (d : pydict) (key : pystr) : option pyval :=
  match d with
  | [] => None
  | (k, v) :: r => if pystr_eqb k key then Some v else dict_find r key
  end.

Definition dict_get (d : pydict) (key : pystr) (default : pyval) : pyval :=
  match dict_find d key with
  | Some v => v
  | None => default
  end.

Fixpoint dict_set (d : pydict) (key : pystr) (v : pyval) : pydict :=
  match d with
  | [] => [(key, v)]
  | (k, w) :: r =>
      if pystr_eqb k key then (k, v) :: r else (k, w) :: dict_set r key v
  end.

(** ** Exceptions *)

Inductive exn : Type :=
| TimeoutExpired
| FileNotFoundError
| AttributeError (obj : pyval) (attr : pystr)
| TypeError (operation : pystr) (arg : pyval)
| ValueError (operation : pystr) (arg : pyval)
| OverflowError (operation : pystr)
| ZeroDivisionError
| OtherError (description : pystr).

Inductive res (A : Type) : Type :=
| Ok (a : A)
| Raise (e : exn).

Arguments Ok {A} a.
Arguments Raise {A} e.

Definition bind {A B : Type} (m : res A) (k : A -> res B) : res B :=
  match m with
  | Ok a => k a
  | Raise e => Raise e
  end.

Notation "x <- m ;; k" := (bind m (fun x => k))
  (at level 61, m at next level, right associativity).

(** [obj.get]: only a [dict] has the method. *)
Definition as_dict (v : pyval) : res pydict :=
  match v with
  | PDict d => Ok d
  | _ => Raise (AttributeError v (of_string "get"))
  end.

(** [float(z)] and [a / b] on integers: correctly rounded, and an error when
    the result is beyond the largest float. *)
Definition float_of_int (z : Z) : res float :=
  if (overflow_bound <=? Z.abs z)%Z
  then Raise (OverflowError (of_string "int too large to convert to float"))
  else Ok (float_of_ratio z 1).

Definition int_truediv (a b : Z) : res float :=
  match b with
  | Z0 => Raise ZeroDivisionError
  | Zpos d | Zneg d =>
      if (Z.abs b * overflow_bound <=? Z.abs a)%Z
      then Raise (OverflowError
                    (of_string "integer division result too large for a float"))
      else Ok (float_of_ratio (if (b <? 0)%Z then (- a)%Z else a) d)
  end.


(* ================================================================== *)
(** * [json.loads]

    The decoder of the standard library with its default settings: the
    grammar of RFC 8259 extended with [NaN], [Infinity] and [-Infinity],
    strict strings, and the last value kept for a repeated key.  [None]
    stands for [json.JSONDecodeError].  The interpreter's limits on nesting
    depth and on the length of integer literals are left out. *)
(* ================================================================== *)

Module Json.

Definition is_ws (c : N) : bool :=
  (N.eqb c 32 || N.eqb c 9 || N.eqb c 10 || N.eqb c 13)%bool.

Fixpoint skip_ws (s : pystr) : pystr :=
  match s with
  | [] => []
  | c :: r => if is_ws c then skip_ws r else s
  end.

Definition is_digit (c : N) : bool := ((48 <=? c) && (c <=? 57))%N%bool.

Definition hex_val (c : N) : option N :=
  if is_digit c then Some (c - 48)%N
  else if ((97 <=? c) && (c <=? 102))%N%bool then Some (c - 87)%N
  else if ((65 <=? c) && (c <=? 70))%N%bool then Some (c - 55)%N
  else None.

Definition hex4 (a b c d : N) : option N :=
  match hex_val a, hex_val b, hex_val c, hex_val d with
  | Some x, Some y, Some z, Some w => Some (((x * 16 + y) * 16 + z) * 16 + w)%N
  | _, _, _, _ => None
  end.

Definition simple_escape (c : N) : option N :=
  if N.eqb c 34 then Some 34%N        (* quote *)
  else if N.eqb c 92 then Some 92%N   (* backslash *)
  else if N.eqb c 47 then Some 47%N   (* slash *)
  else if N.eqb c 98 then Some 8%N    (* b *)
  else if N.eqb c 102 then Some 12%N  (* f *)
  else if N.eqb c 110 then Some 10%N  (* n *)
  else if N.eqb c 114 then Some 13%N  (* r *)
  else if N.eqb c 116 then Some 9%N   (* t *)
  else None.

Definition is_high_surrogate (c : N) : bool := ((55296 <=? c) && (c <=? 56319))%N%bool.
Definition is_low_surrogate (c : N) : bool := ((56320 <=? c) && (c <=? 57343))%N%bool.
Definition join_surrogates (hi lo : N) : N :=
  (65536 + (hi - 55296) * 1024 + (lo - 56320))%N.

(** The body of a string, from the character after the opening quote; the
    result is the decoded text and what follows the closing quote. *)
Fixpoint scanstring (s : pystr) (acc : pystr) : option (pystr * pystr) :=
  match s with
  | [] => None
  | c :: r =>
      if N.eqb c 34 then Some (rev acc, r)
      else if N.eqb c 92 then
        match r with
        | [] => None
        | e :: r1 =>
            if N.eqb e 117 then
              match r1 with
              | a :: b :: c1 :: d :: r4 =>
                  match hex4 a b c1 d with
                  | None => None
                  | Some cp =>
                      match r4 with
                      | b1 :: u1 :: h1 :: h2 :: h3 :: h4 :: ((_ :: _) as r10) =>
                          if (is_high_surrogate cp && N.eqb b1 92 && N.eqb u1 117)%bool
                          then
                            match hex4 h1 h2 h3 h4 with
                            | None => None
                            | Some cp2 =>
                                if is_low_surrogate cp2
                                then scanstring r10 (join_surrogates cp cp2 :: acc)
                                else scanstring r4 (cp :: acc)
                            end
                          else scanstring r4 (cp :: acc)
                      | _ => scanstring r4 (cp :: acc)
                      end
                  end
              | _ => None
              end
            else
              match simple_escape e with
              | Some ch => scanstring r1 (ch :: acc)
              | None => None
              end
        end
      else if (c <=? 31)%N then None
      else scanstring r (c :: acc)
  end.

(** Digits at the head of [s]: their value, how many there are, the rest. *)
Fixpoint take_digits (s : pystr) (acc : N) (count : nat) : N * nat * pystr :=
  match s with
  | c :: r => if is_digit c then take_digits r (acc * 10 + (c - 48))%N (S count)
              else (acc, count, s)
  | [] => (acc, count, [])
  end.

(** A number literal at the head of [s]. *)
Definition match_number (s : pystr) : option (pyval * pystr) :=
  let '(neg, s1) := match s with
                    | c :: r => if N.eqb c 45 then (true, r) else (false, s)
                    | [] => (false, s)
                    end in
  match s1 with
  | [] => None
  | c :: r =>
      if negb (is_digit c) then None
      else
        let '(ipart, _, s2) :=
          if N.eqb c 48 then (0%N, 1%nat, r) else take_digits s1 0 0 in
        let '(mant, fcount, s3, is_float) :=
          match s2 with
          | dot :: d :: _ =>
              if (N.eqb dot 46 && is_digit d)%bool
              then let '(m, k, rest) := take_digits (tl s2) ipart 0 in
                   (m, k, rest, true)
              else (ipart, 0%nat, s2, false)
          | _ => (ipart, 0%nat, s2, false)
          end in
        let '(ex, s4, is_float) :=
          match s3 with
          | e :: after =>
              if (N.eqb e 101 || N.eqb e 69)%bool then
                let '(eneg, digits) :=
                  match after with
                  | sg :: r' =>
                      if N.eqb sg 45 then (true, r')
                      else if N.eqb sg 43 then (false, r')
                      else (false, after)
                  | [] => (false, after)
                  end in
                let '(ev, ecount, rest) := take_digits digits 0 0 in
                match ecount with
                | O => (0%Z, s3, is_float)
                | _ => ((if eneg then - Z.of_N ev else Z.of_N ev)%Z, rest, true)
                end
              else (0%Z, s3, is_float)
          | [] => (0%Z, s3, is_float)
          end in
        if is_float then
          match mant with
          | N0 => Some (PFloat (S754_zero neg), s4)
          | Npos m => Some (PFloat (float_of_decimal neg m (Z.of_nat fcount - ex)), s4)
          end
        else
          Some (PInt (if neg then (- Z.of_N ipart)%Z else Z.of_N ipart), s4)
  end.

Definition literal (s : pystr) : option (pyval * pystr) :=
  if startswith (of_string "null") s then Some (PNone, skipn 4 s)
  else if startswith (of_string "true") s then Some (PBool true, skipn 4 s)
  else if startswith (of_string "false") s then Some (PBool false, skipn 5 s)
  else if startswith (of_string "NaN") s then Some (PFloat S754_nan, skipn 3 s)
  else if startswith (of_string "Infinity") s
       then Some (PFloat (S754_infinity false), skipn 8 s)
  else if startswith (of_string "-Infinity") s
       then Some (PFloat (S754_infinity true), skipn 9 s)
  else None.

Definition expect (c : N) (s : pystr) : option pystr :=
  match s with
  | x :: r => if N.eqb x c then Some r else None
  | [] => None
  end.

(** One JSON value at the head of [s].  Every step that takes one unit of
    [fuel] also consumes a character, so the length of the text is fuel
    enough. *)
Fixpoint scan_once (fuel : nat) (s : pystr) : option (pyval * pystr) :=
  match fuel with
  | O => None
  | S f =>
      match s with
      | [] => None
      | c :: r =>
          if N.eqb c 34 then
            match scanstring r [] with
            | Some (k, r') => Some (PStr k, r')
            | None => None
            end
          else if N.eqb c 123 then
            let r1 := skip_ws r in
            match expect 125 r1 with
            | Some r2 => Some (PDict [], r2)
            | None => parse_members f r1 []
            end
          else if N.eqb c 91 then
            let r1 := skip_ws r in
            match expect 93 r1 with
            | Some r2 => Some (PList [], r2)
            | None => parse_items f r1 []
            end
          else
            match literal s with
            | Some x => Some x
            | None => match_number s
            end
      end
  end
with parse_members (fuel : nat) (s : pystr) (acc : pydict)
  : option (pyval * pystr) :=
  match fuel with
  | O => None
  | S f =>
      match expect 34 s with
      | None => None
      | Some r =>
          match scanstring r [] with
          | None => None
          | Some (key, r1) =>
              match expect 58 (skip_ws r1) with
              | None => None
              | Some r2 =>
                  match scan_once f (skip_ws r2) with
                  | None => None
                  | Some (v, r3) =>
                      let acc' := dict_set acc key v in
                      let r4 := skip_ws r3 in
                      match expect 125 r4 with
                      | Some r5 => Some (PDict acc', r5)
                      | None =>
                          match expect 44 r4 with
                          | Some r5 => parse_members f (skip_ws r5) acc'
                          | None => None
                          end
                      end
                  end
              end
          end
      end
  end
with parse_items (fuel : nat) (s : pystr) (acc : list pyval)
  : option (pyval * pystr) :=
  match fuel with
  | O => None
  | S f =>
      match scan_once f s with
      | None => None
      | Some (v, r1) =>
          let acc' := acc ++ [v] in
          let r2 := skip_ws r1 in
          match expect 93 r2 with
          | Some r3 => Some (PList acc', r3)
          | None =>
              match expect 44 r2 with
              | Some r3 => parse_items f (skip_ws r3) acc'
              | None => None
              end
          end
      end
  end.

Definition loads (s : pystr) : option pyval :=
  match scan_once (2 * length s + 2) (skip_ws s) with
  | Some (v, r) => match skip_ws r with [] => Some v | _ => None end
  | None => None
  end.

End Json.

Definition json_loads : pystr -> option pyval := Json.loads.

(* ================================================================== *)
(** * [json.dumps] and [str] *)
(* ================================================================== *)

Definition hex_digit (n : N) : N := if (n <? 10)%N then (48 + n)%N else (87 + n)%N.

(** [\uXXXX] *)
Definition u_escape (n : N) : pystr :=
  [92; 117; hex_digit (n / 4096 mod 16); hex_digit (n / 256 mod 16);
   hex_digit (n / 16 mod 16); hex_digit (n mod 16)]%N.

Definition escape_char (c : N) : pystr :=
  if N.eqb c 92 then [92; 92]%N
  else if N.eqb c 34 then [92; 34]%N
  else if N.eqb c 8 then [92; 98]%N
  else if N.eqb c 12 then [92; 102]%N
  else if N.eqb c 10 then [92; 110]%N
  else if N.eqb c 13 then [92; 114]%N
  else if N.eqb c 9 then [92; 116]%N
  else if ((32 <=? c) && (c <=? 126))%N%bool then [c]
  else if (c <? 65536)%N then u_escape c
  else
    let n := (c - 65536)%N in
    u_escape (55296 + n / 1024 mod 1024) ++ u_escape (56320 + n mod 1024).

Definition encode_string (s : pystr) : pystr :=
  [DQUOTE] ++ flat_map escape_char s ++ [DQUOTE].

Definition float_json (x : float) : pystr :=
  match x with
  | S754_nan => of_string "NaN"
  | S754_infinity s => of_string (if s then "-Infinity" else "Infinity")
  | _ => float_repr x
  end.

Fixpoint json_dumps (v : pyval) : pystr :=
  match v with
  | PNone => of_string "null"
  | PBool b => of_string (if b then "true" else "false")
  | PInt z => str_of_Z z
  | PFloat f => float_json f
  | PStr s => encode_string s
  | PList l => of_string "[" ++ join (of_string ", ") (map json_dumps l) ++ of_string "]"
  | PDict d =>
      of_string "{"
      ++ join (of_string ", ")
           (map (fun kv : pystr * pyval => let (k, x) := kv in
                           encode_string k ++ of_string ": " ++ json_dumps x) d)
      ++ of_string "}"
  end.

(** ** What the embedding takes from the interpreter

    Four operations of the interpreter depend on its Unicode tables or on
    the wording of its messages; the functions that use them take them from
    a [PyRuntime]. *)
Class PyRuntime : Type := {
  (** [float(s)] on a string; [None] when it raises [ValueError] *)
  float_of_str : pystr -> option float;
  (** [int(s)] on a string; [None] when it raises [ValueError] *)
  int_of_str : pystr -> option Z;
  (** [repr] of a list or dict that is not empty *)
  repr_container : pyval -> pystr;
  (** [str(e)] *)
  str_exn : exn -> pystr
}.

(** [str(v)], as an f-string formats [v]. *)
Definition py_str `{PyRuntime} (v : pyval) : pystr :=
  match v with
  | PNone => of_string "None"
  | PBool b => of_string (if b then "True" else "False")
  | PInt z => str_of_Z z
  | PFloat f => float_repr f
  | PStr s => s
  | PList [] => of_string "[]"
  | PDict [] => of_string "{}"
  | _ => repr_container v
  end.

(** [float(v)] *)
Definition py_float `{PyRuntime} (v : pyval) : res float :=
  match v with
  | PBool b => Ok (if b then float_of_ratio 1 1 else float_zero)
  | PInt z => float_of_int z
  | PFloat f => Ok f
  | PStr s =>
      match float_of_str s with
      | Some f => Ok f
      | None => Raise (ValueError (of_string "float") v)
      end
  | _ => Raise (TypeError (of_string "float") v)
  end.

(** [int(v)] *)
Definition py_int `{PyRuntime} (v : pyval) : res Z :=
  match v with
  | PBool b => Ok (if b then 1 else 0)%Z
  | PInt z => Ok z
  | PFloat f =>
      match float_trunc f with
      | Some z => Ok z
      | None =>
          match f with
          | S754_nan => Raise (ValueError (of_string "int") v)
          | _ => Raise (OverflowError
                          (of_string "cannot convert float infinity to integer"))
          end
      end
  | PStr s =>
      match int_of_str s with
      | Some z => Ok z
      | None => Raise (ValueError (of_string "int") v)
      end
  | _ => Raise (TypeError (of_string "int") v)
  end.

(* ================================================================== *)
(** * Source: [run_test_suite.py] *)
(* ================================================================== *)

Module RunTestSuite.

Definition SCHEMA_VERSION : pystr := of_string "1.0".

Definition REFLECTION_PROMPT : pystr :=
  join [LF]
    [of_string "Now that you've completed the task, please reflect on your process:";
     [];
     of_string "1. **Process**: What steps did you take to answer this question?";
     of_string "2. **What Worked**: What aspects of the skill, data structure, or instructions helped you succeed?";
     of_string "3. **What Didn't Work**: What was confusing, inefficient, or required workarounds?";
     of_string "4. **Improvements**: How could the skill, data structure, or instructions be improved to make this easier?";
     [];
     of_string "Respond in JSON format with keys: process_steps, what_worked, what_didnt_work, improvement_suggestions (all arrays of strings)."].

(** One call of [subprocess.run]: the argument vector, the working
    directory and the time limit. *)
Record invocation : Type := {
  cmd : list pyval;
  cwd : pystr;
  time_limit : option Z
}.

(** What [subprocess.run] returns when the process has exited. *)
Record CompletedProcess : Type := {
  returncode : Z;
  stdout : pystr;
  stderr : pystr
}.

(** The dict [run_claude_command] returns. *)
Record turn_result : Type := {
  success : bool;
  result : pyval;
  session_id : pyval;
  cost_usd : float;
  num_turns : Z;
  error : option pystr
}.

(** [result["turn1"]]; [a_error] is [None] when the key is not set. *)
Record attempt_record : Type := {
  a_result : pyval;
  a_session_id : pyval;
  a_cost_usd : float;
  a_num_turns : Z;
  a_error : option pystr
}.

(** [result["turn2_reflection"]] *)
Record reflection_record : Type := {
  r_result : pyval;
  r_cost_usd : float;
  r_error : option pystr
}.

(** The dict [run_single_test] returns and [write_test_result] persists. *)
Record test_result : Type := {
  schema_version : pystr;
  test_id : pyval;
  tr_success : bool;
  turn1 : attempt_record;
  turn2_reflection : option reflection_record;
  total_cost_usd : float;
  duration_seconds : float;
  timestamp : pystr
}.

(** [test["id"]] and [test["prompt"]] *)
Record test_case : Type := {
  case_id : pyval;
  case_prompt : pyval
}.

(** The entries of the suite that [run_single_test] reads; an entry that is
    not in the suite reads as [None], and [suite_max_turns] is [None] when
    the suite has no ["max_turns"]. *)
Record suite_config : Type := {
  suite_agent_dir : pystr;
  suite_allowed_tools : pyval;
  suite_permission_mode : pyval;
  suite_max_turns : option pyval
}.

(** The readings of the clock during one test. *)
Record clock : Type := {
  start_time : float;
  end_time : float;
  now_iso : pystr
}.

Definition py_eq_str (v : pyval) (s : pystr) : bool :=
  match v with
  | PStr t => pystr_eqb t s
  | _ => false
  end.

Definition failed_turn (message : pystr) : turn_result :=
  {| success := false;
     result := PStr [];
     error := Some message;
     session_id := PNone;
     cost_usd := float_zero;
     num_turns := 0 |}.

Definition INCOMPLETE_PLACEHOLDER : pystr :=
  of_string "[Task incomplete - max turns reached]".

Definition NO_SESSION_NOTE : pystr :=
  of_string " No session_id returned from Turn 1.".

Section Runner.

Context {rt : PyRuntime}.

(** [subprocess.run], the external world: what a call yields may depend on
    the calls made before it. *)
Variable subprocess_run : list invocation -> invocation -> res CompletedProcess.

Definition build_command
    (prompt allowed_tools permission_mode max_turns session : pyval)
  : list pyval :=
  [PStr (of_string "claude"); PStr (of_string "-p"); prompt;
   PStr (of_string "--output-format"); PStr (of_string "json")]
  ++ (if truthy session then [PStr (of_string "--resume"); session] else [])
  ++ (if truthy allowed_tools
      then [PStr (of_string "--allowedTools"); allowed_tools] else [])
  ++ (if truthy permission_mode
      then [PStr (of_string "--permission-mode"); permission_mode] else [])
  ++ [PStr (of_string "--max-turns"); PStr (py_str max_turns)].

Definition max_turns_message (turns : pyval) : pystr :=
  of_string "Task did not complete within " ++ py_str turns
  ++ of_string " turns (max_turns limit reached)".

(** The fields of the response, each under the keys the code tries. *)
Definition subtype_of (d : pydict) : pyval :=
  dict_get d "subtype" (PStr "success").

Definition text_of (d : pydict) : pyval :=
  dict_get d "result" (dict_get d "message" (PStr [])).

Definition session_of (d : pydict) : pyval :=
  dict_get d "session_id" (dict_get d "sessionId" PNone).

Definition cost_of (d : pydict) : pyval :=
  dict_get d "total_cost_usd"
    (dict_get d "cost_usd" (dict_get d "costUsd" (PFloat float_zero))).

Definition turns_of (d : pydict) : pyval :=
  dict_get d "num_turns" (dict_get d "numTurns" (PInt 1)).

(** [float(cost) if cost else 0.0] and [int(num_turns) if num_turns else 1] *)
Definition convert_cost (cost : pyval) : res float :=
  if truthy cost then py_float cost else Ok float_zero.

Definition convert_turns (turns : pyval) : res Z :=
  if truthy turns then py_int turns else Ok 1%Z.

(** The body of the [try] once the process has exited. *)
Definition read_response (p : CompletedProcess) : res turn_result :=
  match json_loads (stdout p) with
  | None =>
      Ok {| success := false;
            result := PStr (stdout p);
            error := Some (of_string "Failed to parse JSON output: " ++ stderr p);
            session_id := PNone;
            cost_usd := float_zero;
            num_turns := 0 |}
  | Some output =>
      d <- as_dict output ;;
      let subtype := subtype_of d in
      let response_text := text_of d in
      let session := session_of d in
      let cost := cost_of d in
      let turns := turns_of d in
      let response_text :=
        match response_text with
        | PDict _ => PStr (json_dumps response_text)
        | _ => response_text
        end in
      let '(error_msg, response_text) :=
        if py_eq_str subtype "error_max_turns" then
          (Some (max_turns_message turns),
           if truthy response_text then response_text
           else PStr INCOMPLETE_PLACEHOLDER)
        else if negb (returncode p =? 0)%Z then (Some (stderr p), response_text)
        else (None, response_text) in
      c <- convert_cost cost ;;
      n <- convert_turns turns ;;
      Ok {| success := ((returncode p =? 0)%Z && py_eq_str subtype "success")%bool;
            result := response_text;
            session_id := session;
            cost_usd := c;
            num_turns := n;
            error := error_msg |}
  end.

Definition format_time_limit (t : option Z) : pystr :=
  match t with
  | None => of_string "None"
  | Some z => str_of_Z z
  end.

(** The [except] clauses. *)
Definition handle_fault (timeout : option Z) (e : exn) : turn_result :=
  match e with
  | TimeoutExpired =>
      failed_turn (of_string "Test timed out after " ++ format_time_limit timeout
                   ++ of_string " seconds")
  | FileNotFoundError =>
      failed_turn (of_string "claude CLI not found. Is it installed and in PATH?")
  | _ => failed_turn (str_exn e)
  end.

(** The call of [subprocess.run] that [run_claude_command] makes. *)
Definition invocation_of
    (prompt : pyval) (agent_dir : pystr)
    (allowed_tools permission_mode max_turns session : pyval)
    (timeout : option Z) : invocation :=
  {| cmd := build_command prompt allowed_tools permission_mode max_turns session;
     cwd := agent_dir;
     time_limit := timeout |}.

(** [run_claude_command]; the calls made so far are threaded through. *)
Definition run_claude_command
    (prompt : pyval) (agent_dir : pystr)
    (allowed_tools permission_mode max_turns session : pyval)
    (timeout : option Z) (calls : list invocation)
  : turn_result * list invocation :=
  let inv := invocation_of prompt agent_dir allowed_tools permission_mode
               max_turns session timeout in
  (match (p <- subprocess_run calls inv ;; read_response p) with
   | Ok t => t
   | Raise e => handle_fault timeout e
   end,
   calls ++ [inv]).

Definition nonempty_error (e : option pystr) : option pystr :=
  match e with
  | Some (_ :: _) => e
  | _ => None
  end.

Definition error_text (e : option pystr) : pystr :=
  match e with
  | Some s => s
  | None => []
  end.

(** Turn 1: the test prompt, with the configuration of the suite. *)
Definition attempt_turn
    (test : test_case) (suite : suite_config) (timeout : option Z)
    (calls : list invocation) : turn_result * list invocation :=
  run_claude_command (case_prompt test) (suite_agent_dir suite)
    (suite_allowed_tools suite) (suite_permission_mode suite)
    (match suite_max_turns suite with Some m => m | None => PInt 10 end)
    PNone timeout calls.

(** Turn 2: the reflection prompt, in the session of turn 1. *)
Definition reflection_turn
    (suite : suite_config) (session : pyval) (timeout : option Z)
    (calls : list invocation) : turn_result * list invocation :=
  run_claude_command (PStr REFLECTION_PROMPT) (suite_agent_dir suite)
    PNone PNone (PInt 2) session timeout calls.

(** [run_single_test] *)
Definition run_single_test
    (test : test_case) (suite : suite_config) (timeout : option Z)
    (clk : clock) (calls : list invocation)
  : test_result * list invocation :=
  let '(t1, calls) := attempt_turn test suite timeout calls in
  let attempt :=
    {| a_result := result t1;
       a_session_id := session_id t1;
       a_cost_usd := cost_usd t1;
       a_num_turns := num_turns t1;
       a_error := nonempty_error (error t1) |} in
  let finish ok attempt reflection total calls :=
    ({| schema_version := SCHEMA_VERSION;
        test_id := case_id test;
        tr_success := ok;
        turn1 := attempt;
        turn2_reflection := reflection;
        total_cost_usd := total;
        duration_seconds := float_round (float_sub (end_time clk) (start_time clk)) 2;
        timestamp := now_iso clk |}, calls) in
  if negb (truthy (session_id t1)) then
    finish false
      {| a_result := a_result attempt;
         a_session_id := a_session_id attempt;
         a_cost_usd := a_cost_usd attempt;
         a_num_turns := a_num_turns attempt;
         a_error := Some (error_text (a_error attempt) ++ NO_SESSION_NOTE) |}
      None (cost_usd t1) calls
  else
    let '(t2, calls) := reflection_turn suite (session_id t1) timeout calls in
    finish (success t1) attempt
      (Some {| r_result := result t2;
               r_cost_usd := cost_usd t2;
               r_error := nonempty_error (error t2) |})
      (float_add (cost_usd t1) (cost_usd t2)) calls.

End Runner.

(** The record as [json.dump] writes it and [json.load] reads it back. *)
Definition error_entry (e : option pystr) : pydict :=
  match e with
  | Some s => [(of_string "error", PStr s)]
  | None => []
  end.

Definition attempt_to_py (a : attempt_record) : pyval :=
  PDict ([(of_string "result", a_result a);
          (of_string "session_id", a_session_id a);
          (of_string "cost_usd", PFloat (a_cost_usd a));
          (of_string "num_turns", PInt (a_num_turns a))]
         ++ error_entry (a_error a)).

Definition reflection_to_py (r : option reflection_record) : pyval :=
  match r with
  | None => PNone
  | Some r =>
      PDict ([(of_string "result", r_result r);
              (of_string "cost_usd", PFloat (r_cost_usd r))]
             ++ error_entry (r_error r))
  end.

Definition to_py (r : test_result) : pyval :=
  PDict [(of_string "schema_version", PStr (schema_version r));
         (of_string "test_id", test_id r);
         (of_string "success", PBool (tr_success r));
         (of_string "turn1", attempt_to_py (turn1 r));
         (of_string "turn2_reflection", reflection_to_py (turn2_reflection r));
         (of_string "total_cost_usd", PFloat (total_cost_usd r));
         (of_string "duration_seconds", PFloat (duration_seconds r));
         (of_string "timestamp", PStr (timestamp r))].

End RunTestSuite.

(* ================================================================== *)
(** * Source: [aggregate_results.py] *)
(* ================================================================== *)

Module AggregateResults.

(** ** Reflection parsing *)

(** The dict [parse_reflection] returns; each entry is whatever the payload
    stores under the key. *)
Record reflection : Type := {
  improvement_suggestions : pyval;
  what_worked : pyval;
  what_didnt_work : pyval;
  process_steps : pyval
}.





(** ** Statistics *)

(** A Python number: [bool] counts as [int]. *)
Inductive number : Type :=
| NInt (z : Z)
| NFloat (f : float).

Definition as_number (v : pyval) : option number :=
  match v with
  | PBool b => Some (NInt (if b then 1 else 0))
  | PInt z => Some (NInt z)
  | PFloat f => Some (NFloat f)
  | _ => None
  end.

(** [a + v] *)
Definition py_add (a : number) (v : pyval) : res number :=
  match as_number v with
  | None => Raise (TypeError "+" v)
  | Some b =>
      match a, b with
      | NInt x, NInt y => Ok (NInt (x + y))
      | NInt x, NFloat g => f <- float_of_int x ;; Ok (NFloat (float_add f g))
      | NFloat f, NInt y => g <- float_of_int y ;; Ok (NFloat (float_add f g))
      | NFloat f, NFloat g => Ok (NFloat (float_add f g))
      end
  end.

(** [a / n] for an integer [n]: division by zero is an error; a float is
    divided by [n] converted to a float. *)
Definition py_truediv (a : number) (n : Z) : res float :=
  match a with
  | NInt x => int_truediv x n
  | NFloat f =>
      if (n =? 0)%Z then Raise ZeroDivisionError
      else g <- float_of_int n ;; Ok (SFdiv prec emax f g)
  end.

(** [round(a, ndigits)] *)
Definition py_round (a : number) (ndigits : N) : number :=
  match a with
  | NInt x => NInt x
  | NFloat f => NFloat (float_round f ndigits)
  end.

Record statistics : Type := {
  total_tests : Z;
  passed : Z;
  failed : Z;
  success_rate : float;
  total_cost_usd : number;
  total_duration_seconds : number;
  avg_turns_per_test : float;
  avg_cost_per_test : float;
  avg_duration_per_test : float
}.

Definition zero_statistics : statistics :=
  {| total_tests := 0;
     passed := 0;
     failed := 0;
     success_rate := float_zero;
     total_cost_usd := NFloat float_zero;
     total_duration_seconds := NFloat float_zero;
     avg_turns_per_test := float_zero;
     avg_cost_per_test := float_zero;
     avg_duration_per_test := float_zero |}.

(** [sum(1 for r in results if r.get("success", False))] *)
Fixpoint count_passed (results : list pyval) (acc : Z) : res Z :=
  match results with
  | [] => Ok acc
  | r :: rest =>
      d <- as_dict r ;;
      count_passed rest
        (if truthy (dict_get d "success" (PBool false)) then acc + 1 else acc)%Z
  end.

(** [sum(r.get(key, 0.0) for r in results)], added from left to right. *)
Fixpoint sum_field (key : pystr) (results : list pyval) (acc : number)
  : res number :=
  match results with
  | [] => Ok acc
  | r :: rest =>
      d <- as_dict r ;;
      acc' <- py_add acc (dict_get d key (PFloat float_zero)) ;;
      sum_field key rest acc'
  end.

(** The loop that adds the turns of the attempts. *)
Fixpoint sum_turns (results : list pyval) (total_turns : number) : res number :=
  match results with
  | [] => Ok total_turns
  | r :: rest =>
      d <- as_dict r ;;
      let turn1 := dict_get d "turn1" (PDict []) in
      x <- (if truthy turn1
            then t <- as_dict turn1 ;; Ok (dict_get t "num_turns" (PInt 0))
            else Ok (PInt 0)) ;;
      total <- py_add total_turns x ;;
      sum_turns rest total
  end.

Definition calculate_statistics (results : list pyval) : res statistics :=
  match results with
  | [] => Ok zero_statistics
  | _ =>
      let total_tests := Z.of_nat (length results) in
      passed <- count_passed results 0%Z ;;
      let failed := (total_tests - passed)%Z in
      total_cost <- sum_field "total_cost_usd" results (NInt 0) ;;
      total_duration <- sum_field "duration_seconds" results (NInt 0) ;;
      total_turns <- sum_turns results (NInt 0) ;;
      avg_turns <- (if (0 <? total_tests)%Z
                    then py_truediv total_turns total_tests else Ok float_zero) ;;
      avg_cost <- (if (0 <? total_tests)%Z
                   then py_truediv total_cost total_tests else Ok float_zero) ;;
      avg_duration <- (if (0 <? total_tests)%Z
                       then py_truediv total_duration total_tests
                       else Ok float_zero) ;;
      rate <- (if (0 <? total_tests)%Z
               then int_truediv passed total_tests else Ok float_zero) ;;
      Ok {| total_tests := total_tests;
            passed := passed;
            failed := failed;
            success_rate := float_round rate 3;
            total_cost_usd := py_round total_cost 4;
            total_duration_seconds := py_round total_duration 2;
            avg_turns_per_test := float_round avg_turns 1;
            avg_cost_per_test := float_round avg_cost 4;
            avg_duration_per_test := float_round avg_duration 2 |}
  end.

(** ** Suggestions *)



(** A [Counter]: the keys in the order of their first insertion. *)
Definition counter := list (pystr * Z).














Module Collected.
Record t : Type := {
  improvement_suggestions : list pystr;
  what_worked : list pystr;
  what_didnt_work : list pystr;
  suggestion_counts : counter
}.
End Collected.







(** ** Failed tests *)

Record failed_test : Type := {
  test_id : pyval;
  error : pyval
}.

Definition NO_ERROR_PLACEHOLDER : pystr :=
  "Test failed (no specific error message)".

Definition failed_entry (result : pyval) : res (list failed_test) :=
  d <- as_dict result ;;
  if negb (truthy (dict_get d "success" (PBool false))) then
    let test_id := dict_get d "test_id" (PStr "unknown") in
    let turn1 := dict_get d "turn1" (PDict []) in
    error <- (if truthy turn1
              then t <- as_dict turn1 ;; Ok (dict_get t "error" PNone)
              else Ok PNone) ;;
    let error := if truthy error then error else PStr NO_ERROR_PLACEHOLDER in
    Ok [{| test_id := test_id; error := error |}]
  else Ok [].

Fixpoint collect_failed_tests (results : list pyval) : res (list failed_test) :=
  match results with
  | [] => Ok []
  | r :: rest =>
      entry <- failed_entry r ;;
      others <- collect_failed_tests rest ;;
      Ok (entry ++ others)
  end.

End AggregateResults.

(* ================================================================== *)
(** * A reference runtime

    The interpreter's operations on text that is ASCII, with the wording of
    CPython 3.11 for the messages.  The properties below hold for every
    runtime; this one serves to run the functions on concrete inputs. *)
(* ================================================================== *)

Module Reference.

Definition type_name (v : pyval) : pystr :=
  match v with
  | PNone => "NoneType"
  | PBool _ => "bool"
  | PInt _ => "int"
  | PFloat _ => "float"
  | PStr _ => "str"
  | PList _ => "list"
  | PDict _ => "dict"
  end.

Definition lower (c : N) : N :=
  if ((65 <=? c) && (c <=? 90))%N%bool then (c + 32)%N else c.

(** Drops the underscores that separate two digits; any other underscore
    makes the literal invalid. *)
Fixpoint drop_separators (prev_digit : bool) (s : pystr) : option pystr :=
  match s with
  | [] => Some []
  | c :: r =>
      if N.eqb c 95 then
        match r with
        | d :: _ =>
            if (prev_digit && Json.is_digit d)%bool
            then drop_separators false r else None
        | [] => None
        end
      else
        match drop_separators (Json.is_digit c) r with
        | Some r' => Some (c :: r')
        | None => None
        end
  end.

Definition split_sign (s : pystr) : bool * pystr :=
  match s with
  | c :: r => if N.eqb c 45 then (true, r)
              else if N.eqb c 43 then (false, r) else (false, s)
  | [] => (false, s)
  end.

(** [int(s)] in base ten. *)
Definition int_of_ascii (s : pystr) : option Z :=
  match drop_separators false (strip s) with
  | None => None
  | Some t =>
      let '(neg, body) := split_sign t in
      match Json.take_digits body 0 0 with
      | (v, S _, []) => Some (if neg then (- Z.of_N v)%Z else Z.of_N v)
      | _ => None
      end
  end.

(** [float(s)] *)
Definition float_of_ascii (s : pystr) : option float :=
  match drop_separators false (strip s) with
  | None => None
  | Some t =>
      let '(neg, body) := split_sign t in
      let word := map lower body in
      if (pystr_eqb word "inf" || pystr_eqb word "infinity")%bool
      then Some (S754_infinity neg)
      else if pystr_eqb word "nan" then Some S754_nan
      else
        let '(ipart, icount, s1) := Json.take_digits body 0 0 in
        let '(mant, fcount, s2) :=
          match s1 with
          | dot :: r => if N.eqb dot 46 then Json.take_digits r ipart 0
                        else (ipart, 0%nat, s1)
          | [] => (ipart, 0%nat, s1)
          end in
        if (Nat.eqb icount 0 && Nat.eqb fcount 0)%bool then None
        else
          let finish (ex : Z) :=
            match mant with
            | N0 => Some (S754_zero neg)
            | Npos m => Some (float_of_decimal neg m (Z.of_nat fcount - ex))
            end in
          match s2 with
          | [] => finish 0%Z
          | e :: r =>
              if N.eqb (lower e) 101 then
                let '(eneg, digits) := split_sign r in
                match Json.take_digits digits 0 0 with
                | (ev, S _, []) => finish (if eneg then - Z.of_N ev else Z.of_N ev)%Z
                | _ => None
                end
              else None
          end
  end.

Definition hex2 (c : N) : pystr :=
  [92; 120; hex_digit (c / 16 mod 16); hex_digit (c mod 16)]%N.

(** [repr] of a string. *)
Definition repr_str (s : pystr) : pystr :=
  let has c := existsb (N.eqb c) s in
  let quote := if (has 39 && negb (has 34))%N%bool then 34%N else 39%N in
  let esc (c : N) : pystr :=
    if (N.eqb c quote || N.eqb c 92)%bool then [92%N; c]
    else if N.eqb c 10 then "\n"
    else if N.eqb c 13 then "\r"
    else if N.eqb c 9 then "\t"
    else if ((c <? 32) || N.eqb c 127)%N%bool then hex2 c
    else [c] in
  [quote] ++ flat_map esc s ++ [quote].

Fixpoint repr (v : pyval) : pystr :=
  match v with
  | PNone => "None"
  | PBool b => of_string (if b then "True" else "False")
  | PInt z => str_of_Z z
  | PFloat f => float_repr f
  | PStr s => repr_str s
  | PList l => of_string "[" ++ join ", " (map repr l) ++ of_string "]"
  | PDict d =>
      of_string "{"
      ++ join ", " (map (fun kv : pystr * pyval =>
                           let (k, x) := kv in repr_str k ++ of_string ": " ++ repr x) d)
      ++ of_string "}"
  end.

Definition message (e : exn) : pystr :=
  match e with
  | TimeoutExpired => "Command timed out"
  | FileNotFoundError => "[Errno 2] No such file or directory"
  | AttributeError obj attr =>
      of_string "'" ++ type_name obj ++ of_string "' object has no attribute '"
      ++ attr ++ of_string "'"
  | TypeError op arg =>
      op ++ of_string (if pystr_eqb op "int"
                       then "() argument must be a string, a bytes-like object or a real number, not '"
                       else "() argument must be a string or a real number, not '")
      ++ type_name arg ++ of_string "'"
  | ValueError op arg =>
      match arg with
      | PStr s =>
          if pystr_eqb op "float"
          then of_string "could not convert string to float: " ++ repr_str s
          else of_string "invalid literal for int() with base 10: " ++ repr_str s
      | _ => "cannot convert float NaN to integer"
      end
  | OverflowError description => description
  | ZeroDivisionError => "division by zero"
  | OtherError description => description
  end.

Definition cpython : PyRuntime :=
  {| float_of_str := float_of_ascii;
     int_of_str := int_of_ascii;
     repr_container := repr;
     str_exn := message |}.

(** An external world in which the agent answers every call with the same
    completed process. *)
Definition always (p : RunTestSuite.CompletedProcess)
  : list RunTestSuite.invocation -> RunTestSuite.invocation
    -> res RunTestSuite.CompletedProcess :=
  fun _ _ => Ok p.

(** The agent answers the successive calls with the listed outcomes, and is
    not found once the list is exhausted. *)
Definition scripted (outcomes : list (res RunTestSuite.CompletedProcess))
  : list RunTestSuite.invocation -> RunTestSuite.invocation
    -> res RunTestSuite.CompletedProcess :=
  fun calls _ => nth (length calls) outcomes (Raise FileNotFoundError).

Definition exited (code : Z) (out err : pystr) : res RunTestSuite.CompletedProcess :=
  Ok {| RunTestSuite.returncode := code;
        RunTestSuite.stdout := out;
        RunTestSuite.stderr := err |}.

End Reference.

(** ** The runner on concrete responses *)

Module RunnerExamples.

Import RunTestSuite.

Definition run (outcomes : list (res CompletedProcess)) : turn_result :=
  fst (run_claude_command (rt := Reference.cpython) (Reference.scripted outcomes)
         (PStr "What is 2 + 2?") "/srv/agent" PNone PNone (PInt 10) PNone
         (Some 300%Z) []).

Definition a_test : test_case :=
  {| case_id := PStr "arithmetic"; case_prompt := PStr "What is 2 + 2?" |}.

Definition a_suite : suite_config :=
  {| suite_agent_dir := "/srv/agent";
     suite_allowed_tools := PStr "Read";
     suite_permission_mode := PNone;
     suite_max_turns := None |}.

Definition a_clock : clock :=
  {| start_time := float_of_ratio 10 1;
     end_time := float_of_ratio 12346 1000;
     now_iso := "2025-01-01T00:00:00+00:00" |}.

Definition run_test (outcomes : list (res CompletedProcess))
  : test_result * list invocation :=
  run_single_test (rt := Reference.cpython) (Reference.scripted outcomes)
    a_test a_suite (Some 300%Z) a_clock [].

Definition answered : res CompletedProcess :=
  Reference.exited 0
    (txt "{'result': '4', 'session_id': 'abc', 'total_cost_usd': 0.05, 'num_turns': 3}")
    [].

Definition reflected : res CompletedProcess :=
  Reference.exited 0
    (txt "{'result': '{}', 'session_id': 'abc', 'total_cost_usd': 0.01, 'num_turns': 1}")
    [].

(** Three persisted records: a test that passed, a test whose attempt timed
    out, and a test whose attempt exited with status 1 and nothing on its
    standard error while its reflection then ran out of turns. *)
Definition passing_result : test_result :=
  fst (run_test [answered; reflected]).

Definition timed_out_result : test_result :=
  fst (run_test [Raise TimeoutExpired]).

Definition silent_failure : test_result :=
  fst (run_test
         [Reference.exited 1 (txt "{'result': 'partial', 'session_id': 'abc'}") [];
          Reference.exited 0 (txt "{'subtype': 'error_max_turns', 'num_turns': 2}") []]).

End RunnerExamples.

(** The turns of the attempts of a list of records, added up. *)
Fixpoint total_turns_of (rs : list RunTestSuite.test_result) : Z :=
  match rs with
  | [] => 0
  | r :: rest =>
      (RunTestSuite.a_num_turns (RunTestSuite.turn1 r) + total_turns_of rest)%Z
  end.

(** ** Persisted records for the aggregation *)

Module AggregateExamples.



End AggregateExamples.

(* ================================================================== *)
(** * Text: basic facts *)
(* ================================================================== *)

Lemma pystr_eqb_spec (a b : pystr) : reflect (a = b) (pystr_eqb a b).
Proof.
  revert b; induction a as [|x a IH]; intros [|y b]; simpl;
    try (constructor; congruence).
  destruct (N.eqb_spec x y) as [->|Hxy]; simpl.
  - destruct (IH b) as [->|Hab]; constructor; congruence.
  - constructor; congruence.
Qed.


(* ================================================================== *)
(** * Fence stripping *)
(* ================================================================== *)

Lemma split_on_not_nil (sep : N) (s : pystr) : split_on sep s <> [].
Proof.
  destruct s as [|c r]; simpl; [discriminate|].
  destruct (N.eqb c sep); [discriminate|].
  destruct (split_on sep r); discriminate.
Qed.

Lemma startswith_first_line (sep : N) (p s : pystr) :
  ~ In sep p ->
  startswith p s = true ->
  startswith p (nth 0 (split_on sep s) []) = true.
Proof.
  revert s. induction p as [|x p IH]; intros s Hsep H; [reflexivity|].
  destruct s as [|c r]; [discriminate|].
  simpl in H. apply andb_true_iff in H as [Hx Hp].
  apply N.eqb_eq in Hx. subst c.
  simpl. destruct (N.eqb_spec x sep) as [->|Hne].
  - exfalso. apply Hsep. now left.
  - pose proof (IH r (fun Hin => Hsep (or_intror Hin)) Hp) as IHr.
    destruct (split_on sep r) as [|l ls] eqn:Hs.
    + now apply split_on_not_nil in Hs.
    + simpl in *. now rewrite N.eqb_refl, IHr.
Qed.

(** The loop stops at the last line, from [end_idx] down, that is a fence
    once trimmed, and at 0 when there is none. *)
Lemma find_closing_fence_last (lines : list pystr) (n i : nat) :
  (0 < i <= n)%nat ->
  strip (nth i lines []) = FENCE ->
  (forall j, (i < j <= n)%nat -> strip (nth j lines []) <> FENCE) ->
  find_closing_fence lines n = i.
Proof.
  induction n as [|n IH]; intros Hi Hf Hlast; [lia|].
  simpl. destruct (pystr_eqb_spec (strip (nth (S n) lines [])) FENCE) as [He|Hne].
  - destruct (Nat.eq_dec i (S n)) as [->|Hn]; [reflexivity|].
    exfalso. apply (Hlast (S n)); [lia | exact He].
  - assert (i <> S n) by (intros ->; contradiction).
    apply IH; [lia | exact Hf |]. intros j Hj. apply Hlast. lia.
Qed.

Lemma find_closing_fence_none (lines : list pystr) (n : nat) :
  (forall j, (0 < j <= n)%nat -> strip (nth j lines []) <> FENCE) ->
  find_closing_fence lines n = 0%nat.
Proof.
  induction n as [|n IH]; intros H; [reflexivity|].
  simpl. destruct (pystr_eqb_spec (strip (nth (S n) lines [])) FENCE) as [He|Hne].
  - exfalso. apply (H (S n)); [lia | exact He].
  - apply IH. intros j Hj. apply H. lia.
Qed.

Lemma startswith_fence_not_nil (s : pystr) :
  startswith FENCE s = true -> s <> [].
Proof. destruct s; [discriminate | discriminate]. Qed.

(** C5, as the code has it.  For a text that begins with a fence marker
    once its surrounding white space is trimmed, the function returns the
    trimmed content between the opening line and the last later line that
    is a fence marker once trimmed; when no later line is one, it returns
    the trimmed text. *)
Theorem strip_fences_up_to_last_fence_line (text : pystr) :
  startswith FENCE (strip text) = true ->
  let lines := split_on LF (strip text) in
  (forall i,
      (0 < i < length lines)%nat ->
      strip (nth i lines []) = FENCE ->
      (forall j, (i < j < length lines)%nat -> strip (nth j lines []) <> FENCE) ->
      strip_markdown_code_fences text = strip (join [LF] (slice 1 i lines)))
  /\ ((forall i, (0 < i < length lines)%nat -> strip (nth i lines []) <> FENCE) ->
      strip_markdown_code_fences text = strip text).
Proof.
  intros Hstart lines.
  assert (Htext : text <> []).
  { intros ->. discriminate Hstart. }
  assert (Hfirst : startswith FENCE (nth 0 lines []) = true).
  { apply startswith_first_line; [|exact Hstart].
    simpl. intros [H|[H|[H|[]]]]; discriminate H. }
  assert (Hunfold : strip_markdown_code_fences text =
    let end_idx := find_closing_fence lines (length lines - 1) in
    if (0 <? end_idx)%nat then strip (join [LF] (slice 1 end_idx lines))
    else strip text).
  { unfold strip_markdown_code_fences. destruct text; [contradiction|].
    fold lines. rewrite Hstart. fold lines. rewrite Hfirst. reflexivity. }
  split.
  - intros i Hi Hf Hlast. rewrite Hunfold. cbv zeta.
    rewrite (find_closing_fence_last lines (length lines - 1) i);
      [| lia | exact Hf | intros j Hj; apply Hlast; lia].
    destruct (Nat.ltb_spec 0 i); [reflexivity | lia].
  - intros Hnone. rewrite Hunfold. cbv zeta.
    rewrite find_closing_fence_none; [reflexivity|].
    intros j Hj. apply Hnone. lia.
Qed.

Lemma strip_fences_witness :
  strip_markdown_code_fences (txt "```json\n{'a': 1}\n```\nnotes\n ``` \n")
  = txt "{'a': 1}\n```\nnotes"
  /\ strip_markdown_code_fences (txt " ```json\n{'a': 1} ") = txt "```json\n{'a': 1}".
Proof.
  destruct (strip_fences_up_to_last_fence_line
              (txt "```json\n{'a': 1}\n```\nnotes\n ``` \n") eq_refl)
    as [Hlast _].
  destruct (strip_fences_up_to_last_fence_line
              (txt " ```json\n{'a': 1} ") eq_refl)
    as [_ Hnone].
  split.
  - rewrite (Hlast 4%nat).
    + vm_compute. reflexivity.
    + change (0 < 4 < 5)%nat. lia.
    + vm_compute. reflexivity.
    + change (forall j, (4 < j < 5)%nat -> strip (nth j
        (split_on LF (strip (txt "```json\n{'a': 1}\n```\nnotes\n ``` \n"))) [])
        <> FENCE).
      intros j Hj. lia.
  - apply Hnone.
    change (forall i, (0 < i < 2)%nat ->
      strip (nth i (split_on LF (strip (txt " ```json\n{'a': 1} "))) []) <> FENCE).
    intros i Hi.
    assert (i = 1%nat) as -> by lia. vm_compute. discriminate.
Defined.

(** Where the function departs from the rule as the specification words it:
    it stops at the last fence line, not at the nearest one; it trims the
    content; and without a closing fence it returns the text trimmed. *)
Lemma strip_fences_departs_from_spec_rule :
  let t1 := txt "```\na\n```\nb\n```" in
  let t2 := txt "```\n  a  \n```" in
  let t3 := txt "```json\n{'a': 1} " in
  (fence_payload_by_spec t1 = txt "a"
   /\ strip_markdown_code_fences t1 = txt "a\n```\nb")
  /\ (fence_payload_by_spec t2 = txt "  a  "
      /\ strip_markdown_code_fences t2 = txt "a")
  /\ (fence_payload_by_spec t3 = t3
      /\ strip_markdown_code_fences t3 = txt "```json\n{'a': 1}").
Proof. vm_compute. repeat split. Qed.
(* ================================================================== *)
(** * Text: trimming, splitting and joining *)
(* ================================================================== *)










(** ** A payload in a fenced block *)



(** ** What [json.loads] accepts does not begin with a fence *)




(* ================================================================== *)
(** * Properties of the runner *)
(* ================================================================== *)

Section RunnerFacts.

Import RunTestSuite.

Context {rt : PyRuntime}.
Variable world : list invocation -> invocation -> res CompletedProcess.

Lemma error_text_nonempty (e : option pystr) :
  error_text (nonempty_error e) = error_text e.
Proof. destruct e as [[|c s]|]; reflexivity. Qed.

(** What [run_claude_command] returns, from the outcome of the [try]. *)
Lemma run_claude_command_ok
    prompt agent_dir tools mode max_turns session timeout calls p t :
  world calls (invocation_of prompt agent_dir tools mode max_turns session timeout)
    = Ok p ->
  read_response p = Ok t ->
  fst (run_claude_command world prompt agent_dir tools mode max_turns session
         timeout calls) = t.
Proof.
  intros Hw Hr. unfold run_claude_command. simpl. rewrite Hw. simpl.
  rewrite Hr. reflexivity.
Qed.


Lemma run_claude_command_calls
    prompt agent_dir tools mode max_turns session timeout calls :
  snd (run_claude_command world prompt agent_dir tools mode max_turns session
         timeout calls)
  = calls ++ [invocation_of prompt agent_dir tools mode max_turns session timeout].
Proof. reflexivity. Qed.

Lemma placeholder_truthy (x : pyval) :
  truthy (if truthy x then x else PStr INCOMPLETE_PLACEHOLDER) = true.
Proof. destruct (truthy x) eqn:E; [exact E | reflexivity]. Qed.

(** The response of a process that exited with a structured object whose
    cost and turn count convert. *)
Lemma read_response_object p d c n :
  json_loads (stdout p) = Some (PDict d) ->
  convert_cost (cost_of d) = Ok c ->
  convert_turns (turns_of d) = Ok n ->
  exists text err,
    read_response p =
      Ok {| success := ((returncode p =? 0)%Z
                        && py_eq_str (subtype_of d) "success")%bool;
            result := text;
            session_id := session_of d;
            cost_usd := c;
            num_turns := n;
            error := err |}
    /\ (py_eq_str (subtype_of d) "error_max_turns" = true ->
        err = Some (max_turns_message (turns_of d))
        /\ truthy text = true
        /\ ((forall kv, text_of d <> PDict kv) -> truthy (text_of d) = false ->
            text = PStr INCOMPLETE_PLACEHOLDER)).
Proof.
  intros Hj Hc Hn. unfold read_response. rewrite Hj. simpl.
  rewrite Hc, Hn. simpl.
  destruct (py_eq_str (subtype_of d) "error_max_turns") eqn:Hm.
  - eexists _, _. split; [reflexivity|]. intros _. split; [reflexivity|].
    split; [apply placeholder_truthy|].
    intros Hd Hf. destruct (text_of d) eqn:Ht;
      try (rewrite Hf; reflexivity).
    exfalso. eapply Hd. reflexivity.
  - destruct (negb (returncode p =? 0)%Z); eexists _, _;
      (split; [reflexivity| intros; discriminate]).
Qed.


(** C4.  When the attempt yields no session identifier, the test is
    finalized as failed, the reflection field stays absent and no second
    call is made: the only call is the one of the attempt; and the error of
    the attempt is its error text followed by the note that no session was
    returned. *)
Theorem no_session_finalizes_failed test suite timeout clk calls :
  truthy (session_id (fst (attempt_turn world test suite timeout calls))) = false ->
  let t1 := fst (attempt_turn world test suite timeout calls) in
  let r := run_single_test world test suite timeout clk calls in
  tr_success (fst r) = false
  /\ turn2_reflection (fst r) = None
  /\ snd r = snd (attempt_turn world test suite timeout calls)
  /\ length (snd r) = S (length calls)
  /\ a_error (turn1 (fst r)) = Some (error_text (error t1) ++ NO_SESSION_NOTE).
Proof.
  intros H t1 r. subst t1 r. unfold run_single_test.
  destruct (attempt_turn world test suite timeout calls) as [t1 calls1] eqn:Ha.
  simpl in H. rewrite H. simpl.
  repeat split.
  - unfold attempt_turn in Ha.
    rewrite (surjective_pairing (run_claude_command _ _ _ _ _ _ _ _ _)) in Ha.
    rewrite run_claude_command_calls in Ha. inversion Ha.
    rewrite length_app. simpl. lia.
  - rewrite error_text_nonempty. reflexivity.
Qed.

(** C1, as the code has it.  The success flag of the test result is true
    exactly when the attempt succeeded and returned a session identifier;
    what the reflection turn yields does not change it: two worlds that
    answer the attempt alike give the same flag. *)
Theorem success_iff_attempt_succeeded_in_session
    test suite timeout clk calls
    (world' : list invocation -> invocation -> res CompletedProcess) :
  (forall inv, world' calls inv = world calls inv) ->
  let t1 := fst (attempt_turn world test suite timeout calls) in
  tr_success (fst (run_single_test world test suite timeout clk calls))
  = (success t1 && truthy (session_id t1))%bool
  /\ tr_success (fst (run_single_test world' test suite timeout clk calls))
     = tr_success (fst (run_single_test world test suite timeout clk calls)).
Proof.
  intros Hw t1.
  assert (Hflag : forall w,
    tr_success (fst (run_single_test w test suite timeout clk calls))
    = (success (fst (attempt_turn w test suite timeout calls))
       && truthy (session_id (fst (attempt_turn w test suite timeout calls))))%bool).
  { intros w. unfold run_single_test.
    destruct (attempt_turn w test suite timeout calls) as [t c1]. simpl.
    destruct (truthy (session_id t)); simpl.
    - destruct (reflection_turn w suite (session_id t) timeout c1).
      simpl. now rewrite andb_true_r.
    - now rewrite andb_false_r. }
  split; [apply Hflag|].
  rewrite !Hflag.
  assert (Heq : fst (attempt_turn world' test suite timeout calls)
                = fst (attempt_turn world test suite timeout calls)).
  { unfold attempt_turn, run_claude_command. simpl. now rewrite Hw. }
  now rewrite Heq.
Qed.


(** C10, as the code has it.  For a response that is a structured object
    whose cost converts to a number and whose turn count is an integer that
    is not negative, the reported turn count is at least 1: a count of zero
    is reported as 1, and so is a missing count. *)
Theorem reported_turn_count_at_least_one
    prompt agent_dir tools mode max_turns session timeout calls p d c k :
  world calls (invocation_of prompt agent_dir tools mode max_turns session
                 timeout) = Ok p ->
  json_loads (stdout p) = Some (PDict d) ->
  convert_cost (cost_of d) = Ok c ->
  turns_of d = PInt k ->
  (0 <= k)%Z ->
  let t := fst (run_claude_command world prompt agent_dir tools mode max_turns
                  session timeout calls) in
  (1 <= num_turns t)%Z
  /\ num_turns t = (if (k =? 0)%Z then 1 else k)%Z
  /\ (dict_find d "num_turns" = None -> dict_find d "numTurns" = None ->
      num_turns t = 1%Z).
Proof.
  intros Hw Hj Hc Hk Hpos t.
  assert (Hn : convert_turns (turns_of d)
               = Ok (if (k =? 0)%Z then 1 else k)%Z).
  { rewrite Hk. unfold convert_turns. simpl.
    destruct (k =? 0)%Z; reflexivity. }
  destruct (read_response_object p d c _ Hj Hc Hn) as (text & err & Hr & _).
  subst t. rewrite (run_claude_command_ok _ _ _ _ _ _ _ _ _ _ Hw Hr). simpl.
  split; [|split].
  - destruct (Z.eqb_spec k 0); lia.
  - reflexivity.
  - intros H1 H2. unfold turns_of, dict_get in Hk. rewrite H1, H2 in Hk.
    inversion Hk. reflexivity.
Qed.

End RunnerFacts.

Import RunTestSuite RunnerExamples.


Lemma no_session_witness :
  let r := run_test [Reference.exited 1 [] "agent crashed"] in
  tr_success (fst r) = false
  /\ turn2_reflection (fst r) = None
  /\ length (snd r) = 1%nat
  /\ a_error (turn1 (fst r))
     = Some (of_string "Failed to parse JSON output: agent crashed No session_id returned from Turn 1.").
Proof.
  destruct (no_session_finalizes_failed (rt := Reference.cpython)
              (Reference.scripted [Reference.exited 1 [] "agent crashed"])
              a_test a_suite (Some 300%Z) a_clock [] eq_refl)
    as (H1 & H2 & _ & H4 & H5).
  intros r. exact (conj H1 (conj H2 (conj H4 H5))).
Defined.

Lemma success_in_session_witness :
  tr_success (fst (run_test [answered; reflected])) = true
  /\ tr_success (fst (run_test [answered; Raise TimeoutExpired]))
     = tr_success (fst (run_test [answered; reflected])).
Proof.
  destruct (success_iff_attempt_succeeded_in_session (rt := Reference.cpython)
              (Reference.scripted [answered; reflected])
              a_test a_suite (Some 300%Z) a_clock []
              (Reference.scripted [answered; Raise TimeoutExpired])
              (fun _ => eq_refl))
    as (H1 & H2).
  split; [exact H1 | exact H2].
Defined.

(** The attempt succeeds, the response names no session, and the test is
    recorded as failed. *)
Lemma success_without_session_is_failure :
  let world := Reference.scripted [Reference.exited 0 (txt "{'result': '4'}") []] in
  success (fst (attempt_turn (rt := Reference.cpython) world a_test a_suite
                  (Some 300%Z) [])) = true
  /\ tr_success (fst (run_single_test (rt := Reference.cpython) world a_test
                        a_suite (Some 300%Z) a_clock [])) = false.
Proof. vm_compute. split; reflexivity. Qed.



Lemma reported_turn_count_witness :
  num_turns (run [Reference.exited 0 (txt "{'result': '4', 'num_turns': 0}") []]) = 1%Z
  /\ num_turns (run [Reference.exited 0 (txt "{'result': '4'}") []]) = 1%Z.
Proof.
  split.
  - eassert (Hj : json_loads (txt "{'result': '4', 'num_turns': 0}")
                  = Some (PDict _)) by (vm_compute; reflexivity).
    destruct (reported_turn_count_at_least_one (rt := Reference.cpython)
                (Reference.scripted
                   [Reference.exited 0 (txt "{'result': '4', 'num_turns': 0}") []])
                (PStr "What is 2 + 2?") "/srv/agent" PNone PNone (PInt 10) PNone
                (Some 300%Z) [] _ _ _ 0%Z eq_refl Hj eq_refl eq_refl
                (Z.le_refl 0))
      as (_ & H & _).
    exact H.
  - eassert (Hj : json_loads (txt "{'result': '4'}") = Some (PDict _))
      by (vm_compute; reflexivity).
    destruct (reported_turn_count_at_least_one (rt := Reference.cpython)
                (Reference.scripted
                   [Reference.exited 0 (txt "{'result': '4'}") []])
                (PStr "What is 2 + 2?") "/srv/agent" PNone PNone (PInt 10) PNone
                (Some 300%Z) [] _ _ _ 1%Z eq_refl Hj eq_refl eq_refl
                Z.le_0_1)
      as (_ & _ & H).
    exact (H eq_refl eq_refl).
Defined.

(** Three structured responses whose reported turn count is below 1: a
    fractional count, a negative count, and a cost that is not a number. *)
Lemma reported_turn_count_below_one :
  let parsed (out : pystr) :=
    match json_loads out with Some (PDict _) => true | _ => false end in
  let out1 := txt "{'result': '4', 'num_turns': 0.5}" in
  let out2 := txt "{'result': '4', 'num_turns': -1}" in
  let out3 := txt "{'result': '4', 'num_turns': 3, 'total_cost_usd': 'n/a'}" in
  parsed out1 = true /\ num_turns (run [Reference.exited 0 out1 []]) = 0%Z
  /\ parsed out2 = true /\ num_turns (run [Reference.exited 0 out2 []]) = (-1)%Z
  /\ parsed out3 = true /\ num_turns (run [Reference.exited 0 out3 []]) = 0%Z.
Proof. vm_compute. repeat split; reflexivity. Qed.
(* ================================================================== *)
(** * Properties of the aggregation *)
(* ================================================================== *)

Section PersistedRecords.

Import RunTestSuite AggregateResults.

(** What the aggregation reads in a record that the runner wrote. *)
Lemma record_success (r : test_result) :
  exists d, to_py r = PDict d
    /\ dict_get d "success" (PBool false) = PBool (tr_success r)
    /\ dict_get d "test_id" (PStr "unknown") = RunTestSuite.test_id r
    /\ dict_get d "total_cost_usd" (PFloat float_zero)
       = PFloat (RunTestSuite.total_cost_usd r)
    /\ dict_get d "duration_seconds" (PFloat float_zero)
       = PFloat (duration_seconds r)
    /\ dict_get d "turn1" (PDict []) = attempt_to_py (turn1 r)
    /\ dict_get d "turn2_reflection" PNone
       = reflection_to_py (turn2_reflection r).
Proof. eexists. split; [reflexivity|]. repeat split. Qed.

Lemma attempt_fields (a : attempt_record) :
  exists t, attempt_to_py a = PDict t
    /\ truthy (attempt_to_py a) = true
    /\ dict_get t "num_turns" (PInt 0) = PInt (a_num_turns a)
    /\ dict_get t "error" PNone
       = match a_error a with Some s => PStr s | None => PNone end.
Proof.
  eexists. split; [reflexivity|]. repeat split.
  destruct (a_error a); reflexivity.
Qed.

#[local] Arguments to_py : simpl never.
#[local] Arguments attempt_to_py : simpl never.
#[local] Arguments reflection_to_py : simpl never.

(** ** Failed tests *)

Lemma failed_entry_record (r : test_result) :
  failed_entry (to_py r)
  = Ok (if tr_success r then []
        else [{| AggregateResults.test_id := RunTestSuite.test_id r;
                 AggregateResults.error :=
                   PStr (match a_error (turn1 r) with
                         | Some (c :: s) => c :: s
                         | _ => NO_ERROR_PLACEHOLDER
                         end) |}]).
Proof.
  destruct (record_success r) as (d & Hd & Hs & Hi & _ & _ & Ht & _).
  destruct (attempt_fields (turn1 r)) as (t & Hta & Htt & _ & He).
  unfold failed_entry. rewrite Hd. simpl. rewrite Hs. simpl.
  destruct (tr_success r); simpl; [reflexivity|].
  rewrite Hi, Ht, Htt, Hta. simpl. rewrite He.
  destruct (a_error (turn1 r)) as [[|c s]|]; reflexivity.
Qed.

(** C9, as the code has it.  Every failing test result gives one record,
    in the order of the results, with the test identifier and an error
    string that is not empty: the error recorded in the attempt, and the
    placeholder when the attempt records none (an error recorded in the
    reflection is not consulted). *)
Theorem failed_tests_carry_attempt_error (rs : list test_result) :
  let record (r : test_result) :=
    {| AggregateResults.test_id := RunTestSuite.test_id r;
       AggregateResults.error :=
         PStr (match a_error (turn1 r) with
               | Some (c :: s) => c :: s
               | _ => NO_ERROR_PLACEHOLDER
               end) |} in
  collect_failed_tests (map to_py rs)
  = Ok (map record (filter (fun r => negb (tr_success r)) rs))
  /\ (forall r, truthy (AggregateResults.error (record r)) = true).
Proof.
  intros record. split.
  - induction rs as [|r rs IH]; [reflexivity|].
    simpl. rewrite failed_entry_record, IH. simpl.
    destruct (tr_success r); reflexivity.
  - intros r. simpl. destruct (a_error (turn1 r)) as [[|c s]|]; reflexivity.
Qed.

(** ** Statistics *)

Lemma bound_above_word : (2 ^ 63 < overflow_bound)%Z.
Proof. apply Z.ltb_lt. vm_compute. reflexivity. Qed.

Lemma float_of_int_small (z : Z) :
  (Z.abs z < 2 ^ 63)%Z -> float_of_int z = Ok (float_of_ratio z 1).
Proof.
  intros H. unfold float_of_int.
  pose proof bound_above_word.
  destruct (Z.leb_spec overflow_bound (Z.abs z)); [lia | reflexivity].
Qed.

Lemma count_passed_records (rs : list test_result) (acc : Z) :
  count_passed (map to_py rs) acc
  = Ok (acc + Z.of_nat (length (filter tr_success rs)))%Z.
Proof.
  revert acc. induction rs as [|r rs IH]; intros acc; simpl.
  - f_equal. lia.
  - rewrite IH. destruct (tr_success r); simpl length; f_equal; lia.
Qed.

(** The sum of a field that holds a float in every record. *)
Lemma sum_field_floats (key : pystr) (field : test_result -> float)
    (rs : list test_result) :
  (forall r, exists d, to_py r = PDict d
             /\ dict_get d key (PFloat float_zero) = PFloat (field r)) ->
  forall acc, (acc = NInt 0 \/ exists f, acc = NFloat f) ->
  exists total, sum_field key (map to_py rs) acc = Ok total
    /\ (total = NInt 0 \/ exists f, total = NFloat f).
Proof.
  intros Hget. induction rs as [|r rs IH]; intros acc Hacc;
    cbn [map sum_field].
  - eexists. split; [reflexivity | exact Hacc].
  - destruct (Hget r) as (d & Hd & Hk). rewrite Hd. simpl. rewrite Hk.
    destruct Hacc as [-> | [f ->]]; simpl.
    + apply IH. right. eexists. reflexivity.
    + apply IH. right. eexists. reflexivity.
Qed.

Lemma sum_turns_records (rs : list test_result) (acc : Z) :
  sum_turns (map to_py rs) (NInt acc) = Ok (NInt (acc + total_turns_of rs)).
Proof.
  revert acc. induction rs as [|r rs IH]; intros acc;
    cbn [map sum_turns total_turns_of].
  - do 2 f_equal. lia.
  - destruct (record_success r) as (d & Hd & _ & _ & _ & _ & Ht & _).
    destruct (attempt_fields (turn1 r)) as (t & Hta & Htt & Hn & _).
    rewrite Hd. simpl. rewrite Ht, Htt, Hta. simpl. rewrite Hn. simpl.
    rewrite IH. do 2 f_equal. lia.
Qed.

Lemma total_turns_bound (rs : list test_result) :
  Forall (fun r => (Z.abs (a_num_turns (turn1 r)) < 2 ^ 63)%Z) rs ->
  (Z.abs (total_turns_of rs) <= Z.of_nat (length rs) * 2 ^ 63)%Z.
Proof.
  induction 1 as [|r rs Hr _ IH]; simpl length; simpl total_turns_of.
  - simpl. lia.
  - rewrite Nat2Z.inj_succ. lia.
Qed.

Lemma int_truediv_small (a : Z) (d : positive) :
  (Z.abs a <= Zpos d * 2 ^ 63)%Z ->
  int_truediv a (Zpos d) = Ok (float_of_ratio a d).
Proof.
  intros H. unfold int_truediv.
  pose proof bound_above_word.
  destruct (Z.leb_spec (Z.abs (Zpos d) * overflow_bound) (Z.abs a)) as [Hle|_].
  - exfalso. simpl Z.abs in Hle. nia.
  - reflexivity.
Qed.

Lemma filter_length_le {A : Type} (f : A -> bool) (l : list A) :
  (length (filter f l) <= length l)%nat.
Proof.
  induction l as [|x l IH]; simpl; [lia|]. destruct (f x); simpl; lia.
Qed.

(** C2, as the code has it.  For every list of test results (fewer than
    2^63 of them, with turn counts below 2^63 in magnitude) the statistics
    are computed without an error; [passed] counts the successful results,
    [passed + failed] is [total_tests], and [success_rate] is the float
    nearest to [passed / total_tests] rounded to three decimals, and 0.0
    for the empty list, whose statistics are all zero. *)
Theorem statistics_counts_and_rounded_rate (rs : list test_result) :
  (Z.of_nat (length rs) < 2 ^ 63)%Z ->
  Forall (fun r => (Z.abs (a_num_turns (turn1 r)) < 2 ^ 63)%Z) rs ->
  exists st,
    calculate_statistics (map to_py rs) = Ok st
    /\ total_tests st = Z.of_nat (length rs)
    /\ passed st = Z.of_nat (length (filter tr_success rs))
    /\ (passed st + failed st = total_tests st)%Z
    /\ success_rate st
       = match rs with
         | [] => float_zero
         | _ => float_round
                  (float_of_ratio (passed st) (Z.to_pos (total_tests st))) 3
         end
    /\ (rs = [] -> st = zero_statistics).
Proof.
  intros Hlen Hturns.
  destruct rs as [|r0 rs0] eqn:Hrs.
  { eexists. split; [reflexivity|]. repeat split. }
  rewrite <- Hrs in *.
  assert (Hpos : (0 < Z.of_nat (length rs))%Z) by (rewrite Hrs; simpl; lia).
  unfold calculate_statistics.
  rewrite length_map.
  rewrite count_passed_records. cbn [bind].
  destruct (sum_field_floats "total_cost_usd" RunTestSuite.total_cost_usd rs)
    with (acc := NInt 0) as (cost & Hcost & Hcf).
  { intros r. destruct (record_success r) as (d & Hd & _ & _ & Hc & _).
    exists d. split; assumption. }
  { left. reflexivity. }
  rewrite Hcost. cbn [bind].
  destruct (sum_field_floats "duration_seconds" duration_seconds rs)
    with (acc := NInt 0) as (dur & Hdur & Hdf).
  { intros r. destruct (record_success r) as (d & Hd & _ & _ & _ & Hc & _).
    exists d. split; assumption. }
  { left. reflexivity. }
  rewrite Hdur. cbn [bind].
  rewrite sum_turns_records. cbn [bind].
  apply Z.ltb_lt in Hpos as Hposb. rewrite Hposb.
  destruct (Z.of_nat (length rs)) as [|n|n] eqn:Hn; try lia.
  assert (Hfn : float_of_int (Zpos n) = Ok (float_of_ratio (Zpos n) 1))
    by (apply float_of_int_small; lia).
  assert (Hdiv : forall x, (x = NInt 0 \/ exists f, x = NFloat f) ->
                 exists q, py_truediv x (Zpos n) = Ok q).
  { intros x [-> | [f ->]]; unfold py_truediv.
    - rewrite int_truediv_small by (simpl; lia). eexists; reflexivity.
    - change (Zpos n =? 0)%Z with false. cbv iota.
      rewrite Hfn. eexists; reflexivity. }
  unfold py_truediv at 1.
  rewrite int_truediv_small
    by (pose proof (total_turns_bound rs Hturns); rewrite Hn in *; simpl; lia).
  cbn [bind].
  destruct (Hdiv cost Hcf) as (qc & ->). cbn [bind].
  destruct (Hdiv dur Hdf) as (qd & ->). cbn [bind].
  rewrite int_truediv_small.
  2:{ pose proof (filter_length_le tr_success rs).
      assert (0 <= Z.of_nat (length (filter tr_success rs)) <= Zpos n)%Z by lia.
      simpl. lia. }
  cbn [bind]. subst rs. cbn [map].
  eexists. split; [reflexivity|]. cbn [total_tests passed failed success_rate].
  split; [reflexivity|]. split; [lia|]. split; [lia|].
  split; [reflexivity | discriminate].
Qed.

End PersistedRecords.

Import RunTestSuite RunnerExamples.

Lemma statistics_witness :
  exists st,
    AggregateResults.calculate_statistics
      (map to_py [passing_result; timed_out_result; timed_out_result]) = Ok st
    /\ AggregateResults.total_tests st = 3%Z
    /\ AggregateResults.passed st = 1%Z
    /\ AggregateResults.failed st = 2%Z
    /\ AggregateResults.success_rate st = float_of_ratio 333 1000.
Proof.
  destruct (statistics_counts_and_rounded_rate
              [passing_result; timed_out_result; timed_out_result])
    as (st & Hst & Ht & Hp & Hf & Hr & _).
  - reflexivity.
  - repeat constructor.
  - exists st. split; [exact Hst|].
    assert (Hp' : AggregateResults.passed st = 1%Z) by exact Hp.
    assert (Ht' : AggregateResults.total_tests st = 3%Z) by exact Ht.
    split; [exact Ht'|]. split; [exact Hp'|]. split; [lia|].
    rewrite Hr, Hp', Ht'. vm_compute. reflexivity.
Defined.

(** One test in three passed: the success rate is 0.333, which is not the
    float nearest to one third. *)
Lemma success_rate_is_rounded :
  exists st,
    AggregateResults.calculate_statistics
      (map to_py [passing_result; timed_out_result; timed_out_result]) = Ok st
    /\ AggregateResults.passed st = 1%Z
    /\ AggregateResults.total_tests st = 3%Z
    /\ AggregateResults.success_rate st = float_of_ratio 333 1000
    /\ AggregateResults.success_rate st <> float_of_ratio 1 3.
Proof.
  eexists. split; [vm_compute; reflexivity|].
  repeat split. vm_compute. discriminate.
Qed.

(** The attempt failed without an error text, the reflection recorded an
    error, and the failed-test record holds the placeholder. *)
Lemma placeholder_despite_reflection_error :
  tr_success silent_failure = false
  /\ option_map r_error (turn2_reflection silent_failure)
     = Some (Some (of_string "Task did not complete within 2 turns (max_turns limit reached)"))
  /\ AggregateResults.collect_failed_tests [to_py silent_failure]
     = Ok [{| AggregateResults.test_id := PStr "arithmetic";
              AggregateResults.error :=
                PStr "Test failed (no specific error message)" |}].
Proof. vm_compute. repeat split. Qed.
(* ================================================================== *)
(** * Reflection parsing *)
(* ================================================================== *)

Section ReflectionFacts.

Import AggregateResults.



End ReflectionFacts.


(* ================================================================== *)
(** * Suggestion ranking *)
(* ================================================================== *)

Section Order.

Import AggregateResults.

Context {A : Type}.






End Order.

Section Counting.

Import AggregateResults.







(** ** The counter *)




End Counting.
Section Ranking.

Import AggregateResults.

(** ** The stable sort of [most_common] *)




(** ** The loop over the results *)





End Ranking.
Section CollectSuggestions.

Import AggregateResults.


End CollectSuggestions.

(* ================================================================== *)
(** * More on the runner *)
(* ================================================================== *)

Section RunnerMore.

Import RunTestSuite.

Context {rt : PyRuntime}.
Variable world : list invocation -> invocation -> res CompletedProcess.

(** A successful turn comes from a process that exited with status 0 and
    printed an object without another subtype than "success". *)
Lemma read_response_success (p : CompletedProcess) (t : turn_result) :
  read_response p = Ok t ->
  success t = true ->
  (returncode p = 0)%Z
  /\ error t = None
  /\ exists d, json_loads (stdout p) = Some (PDict d)
               /\ py_eq_str (subtype_of d) "success" = true
               /\ session_id t = session_of d.
Proof.
  unfold read_response. intros Hr Hs.
  destruct (json_loads (stdout p)) as [output|] eqn:Hj.
  2:{ inversion Hr; subst t. discriminate Hs. }
  destruct output; cbn [as_dict bind] in Hr; try discriminate Hr.
  cbv zeta in Hr.
  destruct (py_eq_str (subtype_of d) "error_max_turns") eqn:Hm;
    [|destruct (negb (returncode p =? 0)%Z) eqn:Hrc];
    (destruct (convert_cost (cost_of d)) as [c|]; cbn [bind] in Hr;
       [|discriminate Hr]);
    (destruct (convert_turns (turns_of d)) as [n|]; cbn [bind] in Hr;
       [|discriminate Hr]);
    inversion Hr; subst t; simpl in Hs;
    apply andb_true_iff in Hs as [Hz Hs].
  - destruct (subtype_of d); try discriminate Hs. simpl in Hm, Hs.
    destruct (pystr_eqb_spec s "success"); [|discriminate Hs].
    subst s. discriminate Hm.
  - rewrite Hz in Hrc. discriminate Hrc.
  - apply Z.eqb_eq in Hz. simpl. split; [exact Hz|]. split; [reflexivity|].
    exists d. split; [reflexivity|]. split; [exact Hs|reflexivity].
Qed.

Lemma handle_fault_fails (timeout : option Z) (e : exn) :
  success (handle_fault timeout e) = false.
Proof. destruct e; reflexivity. Qed.

(** X: a process whose standard output does not decode gives a failed turn
    that keeps the output as it is for the response text and puts the
    standard error in the error. *)
Theorem undecodable_output_is_kept
    prompt agent_dir tools mode max_turns session timeout calls p :
  world calls (invocation_of prompt agent_dir tools mode max_turns session
                 timeout) = Ok p ->
  json_loads (stdout p) = None ->
  fst (run_claude_command world prompt agent_dir tools mode max_turns session
         timeout calls)
  = {| success := false;
       result := PStr (stdout p);
       session_id := PNone;
       cost_usd := float_zero;
       num_turns := 0;
       error := Some (of_string "Failed to parse JSON output: " ++ stderr p) |}.
Proof.
  intros Hw Hj. unfold run_claude_command. simpl. rewrite Hw. simpl.
  unfold read_response. rewrite Hj. reflexivity.
Qed.

(** X: a turn is reported successful only when the process exited with
    status 0 and printed an object whose subtype is "success" or missing;
    such a turn carries no error, and its session is the one the object
    names. *)
Theorem successful_turn_is_clean
    prompt agent_dir tools mode max_turns session timeout calls :
  let t := fst (run_claude_command world prompt agent_dir tools mode max_turns
                  session timeout calls) in
  success t = true ->
  exists p d,
    world calls (invocation_of prompt agent_dir tools mode max_turns session
                   timeout) = Ok p
    /\ (returncode p = 0)%Z
    /\ json_loads (stdout p) = Some (PDict d)
    /\ py_eq_str (subtype_of d) "success" = true
    /\ error t = None
    /\ session_id t = session_of d.
Proof.
  intros t. subst t. unfold run_claude_command. simpl.
  destruct (world calls _) as [p|e] eqn:Hw; simpl.
  - destruct (read_response p) as [t|e] eqn:Hr.
    + intros Hs. destruct (read_response_success p t Hr Hs)
        as (Hrc & He & d & Hj & Hsub & Hsess).
      exists p, d. repeat split; assumption.
    + rewrite handle_fault_fails. discriminate.
  - rewrite handle_fault_fails. discriminate.
Qed.

(** The error of a successful turn is [None]. *)
Lemma success_has_no_error
    prompt agent_dir tools mode max_turns session timeout calls :
  let t := fst (run_claude_command world prompt agent_dir tools mode max_turns
                  session timeout calls) in
  success t = true -> error t = None.
Proof.
  intros t. subst t. unfold run_claude_command. simpl.
  destruct (world calls _) as [p|e] eqn:Hw; simpl.
  - destruct (read_response p) as [t|e] eqn:Hr.
    + intros Hs. now destruct (read_response_success p t Hr Hs) as (_ & He & _).
    + rewrite handle_fault_fails. discriminate.
  - rewrite handle_fault_fails. discriminate.
Qed.

(** X: when the attempt returns a session, the test makes exactly two
    calls; the second one is the reflection prompt in the same directory
    and with the same time limit, resumes the session of the attempt, is
    limited to 2 turns and passes no tool or permission option; the record
    holds the reflection and the sum of the two costs. *)
Theorem reflection_resumes_attempt_session test suite timeout clk calls :
  let first := attempt_turn world test suite timeout calls in
  truthy (session_id (fst first)) = true ->
  let r := run_single_test world test suite timeout clk calls in
  let second := reflection_turn world suite (session_id (fst first)) timeout
                  (snd first) in
  exists inv,
    snd r = snd first ++ [inv]
    /\ length (snd r) = S (S (length calls))
    /\ cmd inv = [PStr "claude"; PStr "-p"; PStr REFLECTION_PROMPT;
                  PStr "--output-format"; PStr "json";
                  PStr "--resume"; session_id (fst first);
                  PStr "--max-turns"; PStr "2"]
    /\ cwd inv = suite_agent_dir suite
    /\ time_limit inv = timeout
    /\ turn2_reflection (fst r)
       = Some {| r_result := result (fst second);
                 r_cost_usd := cost_usd (fst second);
                 r_error := nonempty_error (error (fst second)) |}
    /\ total_cost_usd (fst r)
       = float_add (cost_usd (fst first)) (cost_usd (fst second)).
Proof.
  intros first Hs r second. subst r second. unfold run_single_test.
  fold first. destruct first as [t1 calls1] eqn:Hf. simpl in Hs. simpl fst.
  simpl snd. rewrite Hs. simpl negb. cbv iota.
  destruct (reflection_turn world suite (session_id t1) timeout calls1)
    as [t2 calls2] eqn:Hr.
  simpl.
  assert (Hc1 : calls1 = calls ++ [invocation_of (case_prompt test)
                  (suite_agent_dir suite) (suite_allowed_tools suite)
                  (suite_permission_mode suite)
                  (match suite_max_turns suite with Some m => m | None => PInt 10 end)
                  PNone timeout]).
  { unfold first, attempt_turn, run_claude_command in Hf. now inversion Hf. }
  unfold reflection_turn, run_claude_command in Hr. inversion Hr as [[Ht2 Hc2]].
  eexists. split; [reflexivity|]. split.
  { rewrite Hc1, !length_app. simpl. lia. }
  split.
  { simpl. unfold build_command. rewrite Hs. reflexivity. }
  repeat split.
Qed.

(** X: a test recorded as passed has a session, a reflection record, and no
    error in its attempt. *)
Theorem passed_test_is_complete test suite timeout clk calls :
  let r := fst (run_single_test world test suite timeout clk calls) in
  tr_success r = true ->
  truthy (a_session_id (turn1 r)) = true
  /\ turn2_reflection r <> None
  /\ a_error (turn1 r) = None.
Proof.
  intros r. subst r. unfold run_single_test.
  pose proof (success_has_no_error (case_prompt test) (suite_agent_dir suite)
                (suite_allowed_tools suite) (suite_permission_mode suite)
                (match suite_max_turns suite with Some m => m | None => PInt 10 end)
                PNone timeout calls) as Hclean.
  fold (attempt_turn world test suite timeout calls) in Hclean.
  destruct (attempt_turn world test suite timeout calls) as [t1 calls1].
  simpl in Hclean.
  destruct (truthy (session_id t1)) eqn:Hs; simpl.
  - destruct (reflection_turn world suite (session_id t1) timeout calls1).
    simpl. intros Hok. rewrite (Hclean Hok). repeat split; [exact Hs | discriminate].
  - discriminate.
Qed.

(** X: the failed-test record of a test whose attempt returned no session
    shows the error text of the attempt followed by the note, never the
    placeholder. *)
Theorem no_session_failure_is_explained test suite timeout clk calls :
  let first := fst (attempt_turn world test suite timeout calls) in
  truthy (session_id first) = false ->
  AggregateResults.collect_failed_tests
    [to_py (fst (run_single_test world test suite timeout clk calls))]
  = Ok [{| AggregateResults.test_id := case_id test;
           AggregateResults.error :=
             PStr (error_text (error first) ++ NO_SESSION_NOTE) |}].
Proof.
  intros first Hs. subst first. simpl AggregateResults.collect_failed_tests.
  rewrite failed_entry_record. unfold run_single_test.
  destruct (attempt_turn world test suite timeout calls) as [t1 calls1].
  simpl in Hs. rewrite Hs. simpl.
  rewrite error_text_nonempty.
  destruct (error_text (error t1) ++ NO_SESSION_NOTE) as [|c s] eqn:He.
  - exfalso. apply app_eq_nil in He as [_ He]. discriminate He.
  - reflexivity.
Qed.

End RunnerMore.
